(** * SLAMpy: the Industry and Wastewater source tools

    A shallow embedding of [SLAMpy/_DirectIndustry.py] and
    [SLAMpy/_DirectWastewater.py].

    The two modules drive a GIS engine through [arcpy].  The embedding keeps
    what the Python code itself decides: the order and the arguments of the
    geoprocessing calls, the paths it builds, the per-row expressions it hands
    to [CalculateField_management], the scan of the factor table and the
    exception it raises.  What the engine decides (geometry, joins, duplicate
    removal) enters through the class [Engine].

    Conventions of the model:
    - a geoprocessing tool returns normally; the only exceptions are the
      one the code raises and those of the Python expressions it evaluates
      itself while it scans the factor table;
    - an expression given to [CalculateField_management], with its code
      block, is evaluated on each row with the [!field!] references replaced
      by the cells of the row;
    - a text that [str.format] writes into a code block is read back as
      Python source when the block is evaluated: see [pasted] for a number
      and [nutrient_is_N] for the nutrient code. *)

From Stdlib Require Import Floats ZArith Lia.
From stdpp Require Import base option list strings gmap.

Open Scope string_scope.

(* Decimal literals such as 0.365 denote the nearest binary64 number, in
   Python as here. *)
Set Warnings "-inexact-float".

(** ** Attribute tables *)

(** A cell of an attribute table: NULL, a DOUBLE or a TEXT.  Python floats
    are IEEE binary64 numbers, as are Rocq's primitive floats. *)
Inductive value : Type :=
| VNull
| VDouble (f : float)
| VText (s : string).

(** A row maps field names to cells; a dataset (feature class or table) is
    the list of its rows, in cursor order. *)
Abbreviation row := (gmap string value).
Abbreviation table := (list (gmap string value)).

(** ** Python helpers *)

(** The exceptions a run can end with.  [Exception] is the one the code
    raises itself ([raise Exception(...)]); the others are raised by Python
    builtins and by [row.getValue]. *)
Inductive exn : Type :=
| Exception (msg : string)
| TypeError
| ValueError
| RuntimeError.

(** Truth value of an optional text argument ([if selection:],
    [if not out_ipc:]): [None] and the empty string are false. *)
Definition truthy (o : option string) : bool :=
  match o with
  | Some s => negb (String.eqb s "")
  | None => false
  end.

(** [x > y] on floats. *)
Definition gt (x y : float) : bool := PrimFloat.ltb y x.

(** [max(l)] on a list of floats: the first item is the candidate, and a
    later item replaces it when it compares greater.  [None] on the empty
    list, where Python raises. *)
Definition py_max (l : list float) : option float :=
  match l with
  | [] => None
  | x :: rest => Some (fold_left (fun m item => if gt item m then item else m) rest x)
  end.

(** A cell seen as a number by a comparison or an arithmetic operator.  The
    per-row expressions are evaluated on numeric operands only: how a NULL or
    a text compares with a number depends on the interpreter version, and the
    evaluators below give [None] there. *)
Definition as_double (v : value) : option float :=
  match v with
  | VDouble f => Some f
  | _ => None
  end.

(** [v == s] for a cell and a string literal: false unless the cell is a
    text equal to the literal. *)
Definition eq_str (v : value) (s : string) : bool :=
  match v with
  | VText t => String.eqb t s
  | _ => false
  end.

(** ** The geodatabase, the calls and the messages *)

(** One invocation of a geoprocessing tool, with the arguments the code
    passes by position. *)
Inductive call : Type :=
| Select (in_features out_feature_class where_clause : string)
| Intersect (in_features : list string) (out_feature_class : string)
| SpatialJoin (target_features join_features out_feature_class : string)
| DeleteIdentical (in_dataset fields : string)
| AddField (in_table field_name field_type : string)
| CalculateField (in_table field expression : string)
| Delete (in_data : string).

(** The tool a call invokes, without its arguments. *)
Inductive tool : Type :=
| TSelect | TIntersect | TSpatialJoin | TDeleteIdentical
| TAddField | TCalculateField | TDelete.

Definition tool_of (c : call) : tool :=
  match c with
  | Select _ _ _ => TSelect
  | Intersect _ _ => TIntersect
  | SpatialJoin _ _ _ => TSpatialJoin
  | DeleteIdentical _ _ => TDeleteIdentical
  | AddField _ _ _ => TAddField
  | CalculateField _ _ _ => TCalculateField
  | Delete _ => TDelete
  end.

(** The state a run acts on: the datasets by path, the geoprocessing calls
    issued so far (oldest first) and the messages sent to the user
    interface. *)
Record world : Type := World {
  data : gmap string (list (gmap string value));
  calls : list call;
  messages : list string
}.

(** A computation reads and updates the world and ends with a value or
    with an exception; the updates made before an exception stay. *)
Definition M (A : Type) : Type := world -> (exn + A) * world.

#[global] Instance M_ret : MRet M := fun A x w => (inr x, w).

#[global] Instance M_bind : MBind M := fun A B k m w =>
  match m w with
  | (inr x, w') => k x w'
  | (inl e, w') => (inl e, w')
  end.

Definition raise {A : Type} (e : exn) : M A := fun w => (inl e, w).

(** Sequencing of Python expressions that may raise. *)
#[global] Instance exn_bind : MBind (sum exn) := fun A B k m =>
  match m with
  | inr x => k x
  | inl e => inl e
  end.

(** The world a computation ends in, and how it ends. *)
Definition final {A : Type} (m : M A) (w : world) : world := snd (m w).
Definition outcome {A : Type} (m : M A) (w : world) : exn + A := fst (m w).

(** [messages.addMessage(text)] *)
Definition addMessage (text : string) : M unit := fun w =>
  (inr tt, World (data w) (calls w) (messages w ++ [text])).

(** Issue a call: log it and let it transform the datasets. *)
Definition issue (c : call)
    (f : gmap string (list (gmap string value)) -> gmap string (list (gmap string value))) : M unit :=
  fun w => (inr tt, World (f (data w)) (calls w ++ [c]) (messages w)).

(** ** Fields *)

(** [AddField] gives every row a NULL cell under the new name; a field that
    is already there is kept. *)
Definition add_field (field_name : string) (r : row) : row :=
  match r !! field_name with
  | Some _ => r
  | None => <[field_name := VNull]> r
  end.

(** [CalculateField] stores the value of the expression in each row.  A
    row on which the expression has no value is left as it was. *)
Definition calc_field (field : string) (expr : row -> option value) (r : row) : row :=
  match expr r with
  | Some v => <[field := v]> r
  | None => r
  end.

(** ** The tools *)

(** What the platform and the engine decide.  [sep] is [os.sep];
    [float_of_text] is [float(s)] on a text, the number it spells if any.
    [reread x] is the number denoted by the decimal text that [str.format]
    writes for the finite float [x] (the interpreter decides how many digits
    it writes).  [quoted_is_N s] tells, for a text [s] with a quote, a
    backslash or a character that is not printable ASCII in it, whether the
    Python source made of [s] between single quotes evaluates to a value
    equal to ['N'] ([None] when that source does not evaluate).
    Each geoprocessing tool is a function of the datasets it reads ([None]
    for a path that names no dataset) and of the arguments that the code
    varies; the keyword arguments are constants of the code. *)
Class Engine : Type := {
  sep : string;
  float_of_text : string -> option float;
  reread : float -> float;
  quoted_is_N : string -> option bool;
  Select_rows : option table -> string -> table;
  Intersect_rows : list (option table) -> table;
  SpatialJoin_rows : option table -> option table -> table;
  DeleteIdentical_rows : table -> string -> table
}.

Section Tools.

Context {engine : Engine}.

(** [sep.join(parts)] *)
Definition sep_join (parts : list string) : string := String.concat sep parts.

(** [float(v)] on a cell. *)
Definition py_float (v : value) : exn + float :=
  match v with
  | VDouble f => inr f
  | VNull => inl TypeError
  | VText s => match float_of_text s with Some f => inr f | None => inl ValueError end
  end.

(** [float(!field!)] inside a per-row expression. *)
Definition float_field (r : row) (field : string) : option float :=
  v ← r !! field;
  match py_float v with inr f => Some f | inl _ => None end.

(** A [{}] of a code block filled by [str.format] with the float [x], as
    the block reads it: a finite float is written as a decimal literal, which
    denotes [reread x]; an infinity or a NaN is written [inf], [-inf] or
    [nan], a name that the block does not define, and evaluating it
    raises. *)
Definition pasted (x : float) : option float :=
  if PrimFloat.is_finite x then Some (reread x) else None.

(** A character that stands for itself between single quotes in Python
    source: a printable ASCII character (codes 32 to 126) other than the
    quote (39) and the backslash (92). *)
Definition plain_char (c : Ascii.ascii) : bool :=
  let n := Ascii.nat_of_ascii c in
  (32 <=? n)%nat && (n <=? 126)%nat && negb (n =? 39)%nat && negb (n =? 92)%nat.

Fixpoint plain (s : string) : bool :=
  match s with
  | EmptyString => true
  | String c s' => plain_char c && plain s'
  end.

(** [nutrient = '{}'] filled with the nutrient code, then
    [nutrient == 'N']: a plain text between quotes denotes itself; any other
    text is whatever Python makes of it. *)
Definition nutrient_is_N (nutrient : string) : option bool :=
  if plain nutrient then Some (String.eqb nutrient "N") else quoted_is_N nutrient.

(** *** The geoprocessing tools *)

Definition Select_analysis (in_features out_feature_class where_clause : string) : M unit :=
  issue (Select in_features out_feature_class where_clause)
        (fun d => <[out_feature_class := Select_rows (d !! in_features) where_clause]> d).

Definition Intersect_analysis (in_features : list string) (out_feature_class : string) : M unit :=
  issue (Intersect in_features out_feature_class)
        (fun d => <[out_feature_class := Intersect_rows ((fun p => d !! p) <$> in_features)]> d).

Definition SpatialJoin_analysis (target_features join_features out_feature_class : string) : M unit :=
  issue (SpatialJoin target_features join_features out_feature_class)
        (fun d => <[out_feature_class :=
                      SpatialJoin_rows (d !! target_features) (d !! join_features)]> d).

Definition DeleteIdentical_management (in_dataset fields : string) : M unit :=
  issue (DeleteIdentical in_dataset fields)
        (alter (fun t => DeleteIdentical_rows t fields) in_dataset).

Definition AddField_management (in_table field_name field_type : string) : M unit :=
  issue (AddField in_table field_name field_type)
        (alter (fmap (add_field field_name)) in_table).

Definition CalculateField_management (in_table field expression : string)
    (expr : row -> option value) : M unit :=
  issue (CalculateField in_table field expression)
        (alter (fmap (calc_field field expr)) in_table).

Definition Delete_management (in_data : string) : M unit :=
  issue (Delete in_data) (delete in_data).

(** [arcpy.SearchCursor(path)]: the rows of the table, in order; it reads
    and changes nothing.  A path that names no table yields no row. *)
Definition SearchCursor (in_table : string) : M table := fun w =>
  (inr (default [] (data w !! in_table)), w).

(** [row.getValue(field)] *)
Definition getValue (r : row) (field : string) : exn + value :=
  match r !! field with
  | Some v => inr v
  | None => inl RuntimeError
  end.

(** *** Industry *)

(** [!<nutrient>_2012_LAM!] *)
Definition IPPC_calc_expr (nutrient : string) (r : row) : option value :=
  r !! (nutrient ++ "_2012_LAM").

(** [flow = !Flow__m3_d! if !Flow__m3_d! > 0 else !Discharge_!] *)
Definition Sect4_Flow_expr (r : row) : option value :=
  flow_m3_d ← r !! "Flow__m3_d";
  discharge ← r !! "Discharge_";
  f ← as_double flow_m3_d;
  if gt f 0 then Some flow_m3_d else Some discharge.

(** The fields whose maximum is the emission limit value: the branch that
    the block takes on the nutrient code pasted into it. *)
Definition ELV_fields (nutrient : string) : option (list string) :=
  is_N ← nutrient_is_N nutrient;
  Some (if is_N : bool
        then ["TON_ELV"; "TN_ELV"; "NO3_ELV"; "NH3_ELV"; "NH4_ELV"; "NO2_ELV"]
        else ["TP_ELV"; "PO4_ELV"]).

(** [elv = float(max([...]))] *)
Definition Sect4_ELV_expr (nutrient : string) (r : row) : option value :=
  fields ← ELV_fields nutrient;
  elvs ← mapM (fun field => r !! field ≫= as_double) fields;
  VDouble <$> py_max elvs.

(** [!Sect4_ELV! * 0.25 * !Sect4_Flow! * 0.365] *)
Definition load (elv flow : float) : float := (elv * 0.25 * flow * 0.365)%float.

Definition Sect4_Load_expr (r : row) : option value :=
  elv ← r !! "Sect4_ELV" ≫= as_double;
  flow ← r !! "Sect4_Flow" ≫= as_double;
  Some (VDouble (load elv flow)).

Definition industry_v2_geoprocessing
    (project_name nutrient location in_ipc in_sect4 out_gdb : string)
    (out_ipc out_sect4 : option string) : M unit :=
  (* calculate load for IPC licences *)
  addMessage ("> Calculating " ++ nutrient ++ " load for IPC industries.");;
  let out_ipc :=
    if truthy out_ipc then default "" out_ipc
    else sep_join [out_gdb; project_name ++ ("_" ++ nutrient ++ "_IndustryIPC")] in
  Intersect_analysis [location; in_ipc] out_ipc;;
  AddField_management out_ipc "IPPC_calc" "DOUBLE";;
  CalculateField_management out_ipc "IPPC_calc" ("!" ++ nutrient ++ "_2012_LAM!")
    (IPPC_calc_expr nutrient);;
  (* calculate load for Section 4 licences *)
  addMessage ("> Calculating " ++ nutrient ++ " load for Section 4 industries.");;
  let out_sect4 :=
    if truthy out_sect4 then default "" out_sect4
    else sep_join [out_gdb; project_name ++ ("_" ++ nutrient ++ "_IndustrySect4")] in
  Intersect_analysis [location; in_sect4] out_sect4;;
  AddField_management out_sect4 "Sect4_Flow" "DOUBLE";;
  CalculateField_management out_sect4 "Sect4_Flow" "flow" Sect4_Flow_expr;;
  AddField_management out_sect4 "Sect4_ELV" "DOUBLE";;
  CalculateField_management out_sect4 "Sect4_ELV" "elv" (Sect4_ELV_expr nutrient);;
  AddField_management out_sect4 "Sect4_Load" "DOUBLE";;
  CalculateField_management out_sect4 "Sect4_Load"
    "!Sect4_ELV! * 0.25 * !Sect4_Flow! * 0.365" Sect4_Load_expr.

(** [IndustryV2.execute]; the eight parameters are read as texts, in the
    order of [getParameterInfo], and the optional one may be [None]. *)
Definition IndustryV2_execute
    (out_gdb out_fld project_name nutrient region : string) (selection : option string)
    (in_ipc in_sect4 : string) : M unit :=
  (* determine which nutrient to work on *)
  let nutrient := if String.eqb nutrient "Nitrogen (N)" then "N" else "P" in
  (* determine which location to work on *)
  location ←
    (if truthy selection then
       addMessage "> Selecting requested Location(s) within Region.";;
       let location := sep_join [out_gdb; project_name ++ "_SelectedRegion"] in
       Select_analysis region location (default "" selection);;
       mret location
     else mret region);
  (* run geoprocessing function *)
  industry_v2_geoprocessing project_name nutrient location in_ipc in_sect4 out_gdb None None.

(** *** Wastewater, version 2 *)

(** [!T<nutrient>_SWO!] and [!PointT<nutrient>!] *)
Definition CSOWast2calc_expr (nutrient : string) (r : row) : option value :=
  r !! ("T" ++ nutrient ++ "_SWO").

Definition AggWast2calc_expr (nutrient : string) (r : row) : option value :=
  r !! ("PointT" ++ nutrient).

Definition wastewater_v2_geoprocessing
    (project_name nutrient location in_agglo out_gdb : string)
    (out_agglo : option string) : M string :=
  (* calculate load for wastewater treatment plants *)
  addMessage ("> Calculating " ++ nutrient ++ " load for Wastewater Treatment Plants.");;
  let out_agglo :=
    if truthy out_agglo then default "" out_agglo
    else sep_join [out_gdb; project_name ++ ("_" ++ nutrient ++ "_Wastewater")] in
  SpatialJoin_analysis in_agglo location out_agglo;;
  AddField_management out_agglo "CSOWast2calc" "DOUBLE";;
  CalculateField_management out_agglo "CSOWast2calc" ("!T" ++ nutrient ++ "_SWO!")
    (CSOWast2calc_expr nutrient);;
  AddField_management out_agglo "AggWast2calc" "DOUBLE";;
  CalculateField_management out_agglo "AggWast2calc" ("!PointT" ++ nutrient ++ "!")
    (AggWast2calc_expr nutrient);;
  mret out_agglo.

Definition WastewaterV2_execute
    (out_gdb out_fld project_name nutrient region : string) (selection : option string)
    (in_agglo : string) : M unit :=
  (* determine which nutrient to work on *)
  let nutrient := if String.eqb nutrient "Nitrogen (N)" then "N" else "P" in
  (* determine which location to work on *)
  location ←
    (if truthy selection then
       addMessage "> Selecting requested Location(s) within Region.";;
       let location := sep_join [out_gdb; project_name ++ "_SelectedRegion"] in
       Select_analysis region location (default "" selection);;
       mret location
     else mret region);
  (* run geoprocessing function *)
  wastewater_v2_geoprocessing project_name nutrient location in_agglo out_gdb None;;
  (* garbage collection *)
  if truthy selection then Delete_management location else mret tt.

(** *** Wastewater, version 1 *)

(** The code block of [PE_calc]:
    [def factor(aer14, lema): return aer14 if aer14 > 1 else lema] *)
Definition PE_calc_factor (aer14 lema : float) : float :=
  if gt aer14 1 then aer14 else lema.

(** [factor(float(!AER14_PE!), float(!LEMA_PE!))] *)
Definition PE_calc_expr (r : row) : option value :=
  aer14 ← float_field r "AER14_PE";
  lema ← float_field r "LEMA_PE";
  Some (VDouble (PE_calc_factor aer14 lema)).

(** The eight factors read from one row of the factor table. *)
Record factors : Type := Factors {
  raw : float;
  prelim : float;
  primary : float;
  second : float;
  tertN : float;
  tertNP : float;
  tertP : float;
  POPfactor : float
}.

(** [float(row.getValue(field))] *)
Definition float_cell (r : row) (field : string) : exn + float :=
  getValue r field ≫= py_float.

(** The body of the [if] inside the loop: the eight assignments, in the
    order of the code. *)
Definition bind_factors (r : row) : exn + factors :=
  raw ← float_cell r "raw";
  prelim ← float_cell r "prelim";
  primary ← float_cell r "primary";
  second ← float_cell r "second";
  tertN ← float_cell r "tertN";
  tertNP ← float_cell r "tertNP";
  tertP ← float_cell r "tertP";
  POPfactor ← float_cell r "POPfactor";
  inr (Factors raw prelim primary second tertN tertNP tertP POPfactor).

(** [row.getValue('FactorName') == '<nutrient>_factors'] *)
Definition is_factor_row (nutrient : string) (r : row) : exn + bool :=
  name ← getValue r "FactorName";
  inr (eq_str name (nutrient ++ "_factors")).

(** The loop over the cursor: the first row that matches binds the factors
    and breaks; [None] when the loop ends with [found] still false. *)
Fixpoint find_factors (nutrient : string) (rows : table) : exn + option factors :=
  match rows with
  | [] => inr None
  | r :: rest =>
      b ← is_factor_row nutrient r;
      if b : bool then fs ← bind_factors r; inr (Some fs)
      else find_factors nutrient rest
  end.

(** The code block of [Treat_Fact]: each [return {}] holds a factor pasted
    by [str.format], and the branch taken evaluates the one it returns. *)
Definition Treat_Fact_factor (fs : factors) (treatment : value) : option float :=
  if eq_str treatment "0 - No Treatment" then pasted (raw fs)
  else if eq_str treatment "0 - Preliminary Treatment" then pasted (prelim fs)
  else if eq_str treatment "1 - Primary Treatment" then pasted (primary fs)
  else if eq_str treatment "2 - Secondary Treatment" then pasted (second fs)
  else if eq_str treatment "3N - Tertiary N Removal" then pasted (tertN fs)
  else if eq_str treatment "3NP - Tertiary N&P Removal" then pasted (tertNP fs)
  else if eq_str treatment "3P - Tertiary P Removal" then pasted (tertP fs)
  else if eq_str treatment "Secondary" then pasted (second fs)
  else pasted (primary fs).

(** [factor(!TreatmentL!)] *)
Definition Treat_Fact_expr (fs : factors) (r : row) : option value :=
  treatment ← r !! "TreatmentL";
  VDouble <$> Treat_Fact_factor fs treatment.

(** The code block of [PEqWast1calc]; [POPfactor] is pasted into the
    [else] branch. *)
Definition PEqWast1calc_value (fs : factors) (wwtp_aer pe_calc treat_fact : float)
    : option float :=
  if gt wwtp_aer 1 then Some 0%float
  else
    popfactor ← pasted (POPfactor fs);
    Some (pe_calc * treat_fact * (popfactor * 365 / 1000))%float.

(** [value(float(!<nutrient>_WWTP_AER!), float(!PE_calc!), float(!Treat_Fact!))] *)
Definition PEqWast1calc_expr (fs : factors) (nutrient : string) (r : row) : option value :=
  wwtp_aer ← float_field r (nutrient ++ "_WWTP_AER");
  pe_calc ← float_field r "PE_calc";
  treat_fact ← float_field r "Treat_Fact";
  VDouble <$> PEqWast1calc_value fs wwtp_aer pe_calc treat_fact.

(** The code block of [PEqSWOWast1calc]; [POPfactor] is pasted into the
    [if] branch. *)
Definition PEqSWOWast1calc_value (fs : factors) (swo_aer pe loss_perce : float)
    : option float :=
  if PrimFloat.ltb swo_aer 0.1
  then
    popfactor ← pasted (POPfactor fs);
    Some (((pe * (popfactor * 365 / 1000)) / 1 - loss_perce) * loss_perce)%float
  else Some 0%float.

(** [value(float(!<nutrient>_SWO_AER!), float(!PE!), float(!LOSS_perce!))] *)
Definition PEqSWOWast1calc_expr (fs : factors) (nutrient : string) (r : row) : option value :=
  swo_aer ← float_field r (nutrient ++ "_SWO_AER");
  pe ← float_field r "PE";
  loss_perce ← float_field r "LOSS_perce";
  VDouble <$> PEqSWOWast1calc_value fs swo_aer pe loss_perce.

(** [!<nutrient>_WWTP_AER!] and [!<nutrient>_SWO_AER!] *)
Definition AERWast1calc_expr (nutrient : string) (r : row) : option value :=
  r !! (nutrient ++ "_WWTP_AER").

Definition AERSWOWast1calc_expr (nutrient : string) (r : row) : option value :=
  r !! (nutrient ++ "_SWO_AER").

(** The scan of the factor table and the [raise] that follows it. *)
Definition lookup_factors (nutrient in_factors_wwtp : string) : M factors :=
  rows ← SearchCursor in_factors_wwtp;
  match find_factors nutrient rows with
  | inl e => raise e
  | inr (Some fs) => mret fs
  | inr None =>
      raise (Exception ("Factors for " ++ nutrient ++ " are not available in "
                        ++ in_factors_wwtp))
  end.

Definition wastewater_v1_geoprocessing
    (project_name nutrient location in_wwtp in_factors_wwtp out_gdb : string)
    (out_wwtp : option string) : M unit :=
  (* calculate load for wastewater treatment plants *)
  addMessage ("> Calculating " ++ nutrient ++ " load for wastewater treatment plants.");;
  let out_wwtp :=
    if truthy out_wwtp then default "" out_wwtp
    else sep_join [out_gdb; project_name ++ ("_" ++ nutrient ++ "_Wastewater")] in
  SpatialJoin_analysis in_wwtp location out_wwtp;;
  DeleteIdentical_management out_wwtp "RegCD";;
  AddField_management out_wwtp "PE_calc" "DOUBLE";;
  CalculateField_management out_wwtp "PE_calc"
    "factor(float(!AER14_PE!), float(!LEMA_PE!))" PE_calc_expr;;
  fs ← lookup_factors nutrient in_factors_wwtp;
  AddField_management out_wwtp "Treat_Fact" "DOUBLE";;
  CalculateField_management out_wwtp "Treat_Fact" "factor(!TreatmentL!)" (Treat_Fact_expr fs);;
  AddField_management out_wwtp "PEqWast1calc" "DOUBLE";;
  CalculateField_management out_wwtp "PEqWast1calc"
    ("value(float(!" ++ nutrient ++ "_WWTP_AER!), float(!PE_calc!), float(!Treat_Fact!))")
    (PEqWast1calc_expr fs nutrient);;
  AddField_management out_wwtp "PEqSWOWast1calc" "DOUBLE";;
  CalculateField_management out_wwtp "PEqSWOWast1calc"
    ("value(float(!" ++ nutrient ++ "_SWO_AER!), float(!PE!), float(!LOSS_perce!))")
    (PEqSWOWast1calc_expr fs nutrient);;
  AddField_management out_wwtp "AERWast1calc" "DOUBLE";;
  CalculateField_management out_wwtp "AERWast1calc" ("!" ++ nutrient ++ "_WWTP_AER!")
    (AERWast1calc_expr nutrient);;
  AddField_management out_wwtp "AERSWOWast1calc" "DOUBLE";;
  CalculateField_management out_wwtp "AERSWOWast1calc" ("!" ++ nutrient ++ "_SWO_AER!")
    (AERSWOWast1calc_expr nutrient).

Definition WastewaterV1_execute
    (out_gdb out_fld project_name nutrient region : string) (selection : option string)
    (in_wwtp in_factors_wwtp_n in_factors_wwtp_p : string) : M unit :=
  (* determine which nutrient to work on *)
  let nutrient := if String.eqb nutrient "Nitrogen (N)" then "N" else "P" in
  (* determine which location to work on *)
  location ←
    (if truthy selection then
       addMessage "> Selecting requested Location(s) within Region.";;
       let location := sep_join [out_gdb; project_name ++ "_SelectedRegion"] in
       Select_analysis region location (default "" selection);;
       mret location
     else mret region);
  (* determine which factors to use *)
  let in_factors_wwtp :=
    if String.eqb nutrient "N" then in_factors_wwtp_n else in_factors_wwtp_p in
  (* run geoprocessing function *)
  wastewater_v1_geoprocessing project_name nutrient location in_wwtp in_factors_wwtp
    out_gdb None;;
  (* garbage collection *)
  if truthy selection then Delete_management location else mret tt.

End Tools.

(** ** Observations on a run *)

(** The calls a computation issues when it is run from [w]: what it
    appends to the log. *)
Definition issued {A : Type} (m : M A) (w : world) : list call :=
  drop (length (calls w)) (calls (final m w)).

(** The dataset a call writes to. *)
Definition target_of (c : call) : string :=
  match c with
  | Select _ out_feature_class _ => out_feature_class
  | Intersect _ out_feature_class => out_feature_class
  | SpatialJoin _ _ out_feature_class => out_feature_class
  | DeleteIdentical in_dataset _ => in_dataset
  | AddField in_table _ _ => in_table
  | CalculateField in_table _ _ => in_table
  | Delete in_data => in_data
  end.

Definition step_of (c : call) : tool * string := (tool_of c, target_of c).

(** The larger of two estimates, as the specification words the rule for
    [PE_calc]; compared below with [PE_calc_factor]. *)
Definition larger_of (a b : float) : float := if gt a b then a else b.

(** The names of the eight factor columns, in the order the code reads
    them. *)
Definition factor_columns : list string :=
  ["raw"; "prelim"; "primary"; "second"; "tertN"; "tertNP"; "tertP"; "POPfactor"].


(** ** A small instance *)

(** An engine for the examples: the separator is a slash, no text spells
    a number, a finite float is written with enough digits to be read back
    as itself, a nutrient code with a quote in it does not evaluate, Select
    keeps every row, Intersect keeps the rows of its second input,
    SpatialJoin keeps the rows of its target and DeleteIdentical finds no
    duplicate. *)
Definition sample_engine : Engine := {|
  sep := "/";
  float_of_text := fun _ => None;
  reread := fun x => x;
  quoted_is_N := fun _ => None;
  Select_rows := fun t _ => default [] t;
  Intersect_rows := fun ts => match ts with [_; Some t] => t | _ => [] end;
  SpatialJoin_rows := fun target _ => default [] target;
  DeleteIdentical_rows := fun t _ => t
|}.

(** A treatment plant that reports 2 PE where the estimate is 5 PE. *)
Definition sample_plant : row :=
  list_to_map [("AER14_PE", VDouble 2); ("LEMA_PE", VDouble 5);
               ("TreatmentL", VText "2 - Secondary Treatment")].

(** A Section 4 licence with a gauged flow. *)
Definition sample_licence : row :=
  list_to_map [("Flow__m3_d", VDouble 10); ("Discharge_", VDouble 3);
               ("TP_ELV", VDouble 2); ("PO4_ELV", VDouble 0.5)].

Definition sample_factor_row (name : string) (POPfactor : float) : row :=
  list_to_map [("FactorName", VText name);
               ("raw", VDouble 1); ("prelim", VDouble 0.875); ("primary", VDouble 0.75);
               ("second", VDouble 0.5); ("tertN", VDouble 0.25); ("tertNP", VDouble 0.125);
               ("tertP", VDouble 0.375); ("POPfactor", VDouble POPfactor)].

Definition sample_world : world :=
  World (list_to_map [("region", [∅]); ("wwtp", [sample_plant]); ("sect4", [sample_licence]);
                      ("factors_N", [sample_factor_row "P_factors" 2;
                                     sample_factor_row "N_factors" 9]);
                      ("factors_P", [sample_factor_row "P_factors" 2])])
        [] [].

(** The sample runs. *)
Definition sample_wastewater_v1 (in_factors_wwtp : string) : M unit :=
  wastewater_v1_geoprocessing (engine := sample_engine)
    "demo" "N" "region" "wwtp" in_factors_wwtp "out.gdb" None.


(** The only row of a dataset of the final world. *)
Definition only_row (m : M unit) (path : string) : row :=
  match data (final m sample_world) !! path with
  | Some [r] => r
  | _ => ∅
  end.

(** ** Field names *)

(** [has_suffix s t]: the text [t] ends with [s].  The names of the fields a
    run reads are built from the nutrient code ([<nutrient>_WWTP_AER],
    [T<nutrient>_SWO]); the names of the fields it writes are literals, told
    apart from the former by how they end. *)
Fixpoint has_suffix (s t : string) : bool :=
  String.eqb t s ||
  match t with
  | EmptyString => false
  | String _ t' => has_suffix s t'
  end.

(** A second instance, with the fields named after the nutrient. *)

(** An agglomeration with its two nitrogen loads. *)
Definition sample_agglomeration : row :=
  list_to_map [("TN_SWO", VDouble 4); ("PointTN", VDouble 7)].

(** A plant with no reported load: 100 PE behind the storm overflow, of
    which a quarter is lost. *)
Definition sample_unreported_plant : row :=
  list_to_map [("AER14_PE", VDouble 2); ("LEMA_PE", VDouble 5);
               ("TreatmentL", VText "2 - Secondary Treatment");
               ("N_WWTP_AER", VDouble 0.5); ("N_SWO_AER", VDouble 0);
               ("PE", VDouble 100); ("LOSS_perce", VDouble 0.25)].

(** A row of factors named for nitrogen whose [tertN] cell is empty. *)
Definition sample_incomplete_factor_row : row :=
  <["tertN" := VNull]> (sample_factor_row "N_factors" 9).

Definition sample_world' : world :=
  World (list_to_map [("region", [∅]); ("agglo", [sample_agglomeration]);
                      ("wwtp", [sample_unreported_plant]);
                      ("factors_N", [sample_factor_row "P_factors" 2;
                                     sample_factor_row "N_factors" 9]);
                      ("factors_null", [sample_incomplete_factor_row;
                                        sample_factor_row "N_factors" 9])])
        [] [].

(** The only row of a dataset after a run from [w]. *)
Definition the_row {A : Type} (m : M A) (w : world) (path : string) : row :=
  match data (final m w) !! path with
  | Some [r] => r
  | _ => ∅
  end.

Definition sample_wastewater_v2 : M string :=
  wastewater_v2_geoprocessing (engine := sample_engine)
    "demo" "N" "region" "agglo" "out.gdb" None.

Definition sample_wastewater_v1' : M unit :=
  wastewater_v1_geoprocessing (engine := sample_engine)
    "demo" "N" "region" "wwtp" "factors_N" "out.gdb" None.

(** A third instance, at the edges of the per-row formulas. *)





(** * Properties *)

(** ** Proof tools *)

(** Run a tool symbolically: unfold the monad and the geoprocessing calls. *)
Ltac run :=
  cbv beta iota zeta delta
    [final outcome issued mbind mret M_bind M_ret raise addMessage issue
     Select_analysis Intersect_analysis SpatialJoin_analysis DeleteIdentical_management
     AddField_management CalculateField_management Delete_management SearchCursor
     lookup_factors industry_v2_geoprocessing wastewater_v2_geoprocessing
     wastewater_v1_geoprocessing IndustryV2_execute WastewaterV2_execute
     WastewaterV1_execute fst snd data calls messages].

(** Read the calls appended to the log. *)
Ltac trace := rewrite <- ?List.app_assoc; rewrite ?drop_app_length; simpl.

(** Case on the result of the scan of the factor table. *)
Ltac scan_cases :=
  match goal with
  | |- context [find_factors ?n ?rows] => destruct (find_factors n rows) as [?e|[?fs|]]
  end.



(** A tool that is not among the listed ones. *)
Ltac absent :=
  let H := fresh in
  intros H; repeat (apply elem_of_cons in H as [H|H]; [discriminate H|]);
  by apply elem_of_nil in H.

Section Properties.

Context {engine : Engine}.

(** ** Fields of a row after [AddField] and [CalculateField] *)

Lemma lookup_add_field_ne f k (r : row) : f ≠ k -> add_field f r !! k = r !! k.
Proof.
  intros Hne. unfold add_field. destruct (r !! f); [done|].
  by rewrite lookup_insert_ne.
Qed.


Lemma lookup_calc_field_ne f e k (r : row) : f ≠ k -> calc_field f e r !! k = r !! k.
Proof.
  intros Hne. unfold calc_field. destruct (e r); [|done].
  by rewrite lookup_insert_ne.
Qed.

Lemma lookup_calc_field_eq f e (r : row) v : e r = Some v -> calc_field f e r !! f = Some v.
Proof. intros He. unfold calc_field. rewrite He. by rewrite lookup_insert_eq. Qed.


Lemma float_field_calc_field_ne f e k (r : row) :
  f ≠ k -> float_field (calc_field f e r) k = float_field r k.
Proof. intros. unfold float_field. by rewrite lookup_calc_field_ne. Qed.

Lemma float_field_add_field_ne f k (r : row) :
  f ≠ k -> float_field (add_field f r) k = float_field r k.
Proof. intros. unfold float_field. by rewrite lookup_add_field_ne. Qed.

(** Read a field that the outer steps do not write. *)
Ltac through :=
  repeat first
    [ rewrite lookup_calc_field_ne by done
    | rewrite lookup_add_field_ne by done
    | rewrite float_field_calc_field_ne by done
    | rewrite float_field_add_field_ne by done ].

Tactic Notation "through" "in" hyp(H) :=
  repeat first
    [ rewrite lookup_calc_field_ne in H by done
    | rewrite lookup_add_field_ne in H by done
    | rewrite float_field_calc_field_ne in H by done
    | rewrite float_field_add_field_ne in H by done ].

(** A row of the output dataset is a row of the engine's output, updated
    by the field steps. *)
Ltac rows H :=
  rewrite ?lookup_alter_eq, ?lookup_insert_eq in H; simpl in H;
  repeat (let r' := fresh "r" in apply list_elem_of_fmap in H as (r' & -> & H)).

(** ** Order on floats *)







(** ** Order of the geoprocessing calls *)

(** C5. Every run of [industry_v2_geoprocessing] issues, in this order,
    Intersect, AddField and CalculateField on the IPC output, then Intersect
    and three AddField/CalculateField pairs on the Section 4 output.  Every
    run of [wastewater_v1_geoprocessing] issues SpatialJoin, DeleteIdentical
    and then AddField/CalculateField pairs on its output: six pairs when the
    run completes, one when it ends with an exception.  The log only grows. *)
Theorem geoprocessing_calls_in_fixed_order :
  (forall project_name nutrient location in_ipc in_sect4 out_gdb out_ipc out_sect4 w,
     let m := industry_v2_geoprocessing project_name nutrient location in_ipc in_sect4
                out_gdb out_ipc out_sect4 in
     calls (final m w) = (calls w ++ issued m w)%list /\
     exists ipc sect4,
       step_of <$> issued m w =
       [(TIntersect, ipc); (TAddField, ipc); (TCalculateField, ipc);
        (TIntersect, sect4); (TAddField, sect4); (TCalculateField, sect4);
        (TAddField, sect4); (TCalculateField, sect4);
        (TAddField, sect4); (TCalculateField, sect4)]) /\
  (forall project_name nutrient location in_wwtp in_factors_wwtp out_gdb out_wwtp w,
     let m := wastewater_v1_geoprocessing project_name nutrient location in_wwtp
                in_factors_wwtp out_gdb out_wwtp in
     calls (final m w) = (calls w ++ issued m w)%list /\
     exists out,
       step_of <$> issued m w =
       ([(TSpatialJoin, out); (TDeleteIdentical, out)] ++
        mjoin (replicate (match outcome m w with inr _ => 6 | inl _ => 1 end)
                 [(TAddField, out); (TCalculateField, out)]))%list).
Proof.
  split.
  - intros. subst m. run. trace. split; [done|]. by eexists _, _.
  - intros. subst m. run. scan_cases; trace; (split; [done|]); by eexists.
Qed.

(** ** Default output paths *)

(** C6. Without an output path, the calls of [industry_v2_geoprocessing]
    write to [<out_gdb><sep><project>_<nutrient>_IndustryIPC] (the first
    three) and to [<out_gdb><sep><project>_<nutrient>_IndustrySect4] (the
    other seven); [wastewater_v2_geoprocessing] writes to, and returns,
    [<out_gdb><sep><project>_<nutrient>_Wastewater]; and the calls of
    [wastewater_v1_geoprocessing], the spatial join first, write to that
    same path. *)
Theorem default_output_paths (project_name nutrient location out_gdb : string) (w : world) :
  (forall in_ipc in_sect4,
     target_of <$> issued (industry_v2_geoprocessing project_name nutrient location in_ipc
                             in_sect4 out_gdb None None) w =
     (replicate 3 (out_gdb +:+ sep +:+ project_name +:+ "_" +:+ nutrient +:+ "_IndustryIPC") ++
      replicate 7 (out_gdb +:+ sep +:+ project_name +:+ "_" +:+ nutrient +:+ "_IndustrySect4"))%list) /\
  (forall in_agglo,
     let m := wastewater_v2_geoprocessing project_name nutrient location in_agglo out_gdb None in
     outcome m w = inr (out_gdb +:+ sep +:+ project_name +:+ "_" +:+ nutrient +:+ "_Wastewater") /\
     target_of <$> issued m w =
     replicate 5 (out_gdb +:+ sep +:+ project_name +:+ "_" +:+ nutrient +:+ "_Wastewater")) /\
  (forall in_wwtp in_factors_wwtp,
     let m := wastewater_v1_geoprocessing project_name nutrient location in_wwtp
                in_factors_wwtp out_gdb None in
     head (issued m w) =
       Some (SpatialJoin in_wwtp location
               (out_gdb +:+ sep +:+ project_name +:+ "_" +:+ nutrient +:+ "_Wastewater")) /\
     forall c, c ∈ issued m w ->
       target_of c = out_gdb +:+ sep +:+ project_name +:+ "_" +:+ nutrient +:+ "_Wastewater").
Proof.
  split; [|split]; intros.
  - run. by trace.
  - subst m. run. by trace.
  - subst m. split.
    + run. by scan_cases; trace.
    + apply Forall_forall. run. scan_cases; trace; by repeat constructor.
Qed.

(** ** Per-row values *)

(** C1, as the code has it.  In every row of the output of
    [wastewater_v1_geoprocessing], [PE_calc] is [AER14_PE] when [AER14_PE]
    is greater than 1, and [LEMA_PE] otherwise. *)
Theorem PE_calc_value
    (project_name nutrient location in_wwtp in_factors_wwtp out_gdb : string)
    (out_wwtp : option string) (w : world) (r : row) (aer14 lema : float) :
  let out := if truthy out_wwtp then default "" out_wwtp
             else out_gdb +:+ sep +:+ project_name +:+ "_" +:+ nutrient +:+ "_Wastewater" in
  r ∈ default [] (data (final (wastewater_v1_geoprocessing project_name nutrient location
                                 in_wwtp in_factors_wwtp out_gdb out_wwtp) w) !! out) ->
  float_field r "AER14_PE" = Some aer14 ->
  float_field r "LEMA_PE" = Some lema ->
  r !! "PE_calc" = Some (VDouble (if gt aer14 1 then aer14 else lema)).
Proof.
  intros out. destruct w as [d c m]. run.
  change (sep_join [out_gdb; project_name +:+ "_" +:+ nutrient +:+ "_Wastewater"])
    with (out_gdb +:+ sep +:+ project_name +:+ "_" +:+ nutrient +:+ "_Wastewater").
  fold out.
  scan_cases; intros Hr Ha Hl; rows Hr; through; through in Ha; through in Hl;
    apply lookup_calc_field_eq; unfold PE_calc_expr; through; by rewrite Ha, Hl.
Qed.









(** ** The factor table *)

Lemma is_factor_row_true (nutrient : string) (r : row) :
  r !! "FactorName" = Some (VText (nutrient +:+ "_factors")) ->
  is_factor_row nutrient r = inr true.
Proof.
  intros H. unfold is_factor_row, getValue. rewrite H. simpl.
  by rewrite String.eqb_refl.
Qed.

Lemma is_factor_row_false (nutrient : string) (r : row) :
  is_Some (r !! "FactorName") ->
  r !! "FactorName" <> Some (VText (nutrient +:+ "_factors")) ->
  is_factor_row nutrient r = inr false.
Proof.
  intros [v Hv] Hne. unfold is_factor_row, getValue. rewrite Hv. simpl. f_equal.
  destruct v as [| |t]; try done. simpl.
  apply String.eqb_neq. intros ->. by apply Hne.
Qed.


(** The loop skips the rows that do not match and stops at the first one
    that does. *)
Lemma find_factors_skip (nutrient : string) (pre rest : table) :
  (forall q, q ∈ pre -> is_Some (q !! "FactorName")) ->
  (forall q, q ∈ pre -> q !! "FactorName" <> Some (VText (nutrient +:+ "_factors"))) ->
  find_factors nutrient (pre ++ rest) = find_factors nutrient rest.
Proof.
  induction pre as [|q pre IH]; intros Hcol Hne; [done|].
  simpl. rewrite is_factor_row_false by (first [apply Hcol|apply Hne]; by left).
  simpl. apply IH; intros; [apply Hcol|apply Hne]; by right.
Qed.





(** ** A failed lookup *)


(** ** The location, the nutrient code and the clean-up of [execute] *)

(** C7. With a non-empty selection, each [execute] first runs
    [Select_analysis] from the region into
    [<out_gdb><sep><project_name>_SelectedRegion] and then runs its
    geoprocessing function on that path.  With no selection ([None] or the
    empty text), it runs the geoprocessing function on the region itself and
    issues no Select. *)
Theorem selection_determines_location
    (out_gdb out_fld project_name nutrient region : string) (selection : option string)
    (w : world) :
  let location := out_gdb +:+ sep +:+ project_name +:+ "_SelectedRegion" in
  (forall where_clause, selection = Some where_clause -> where_clause <> "" ->
     let w' := final (Select_analysis region location where_clause)
                 (final (addMessage "> Selecting requested Location(s) within Region.") w) in
     calls w' = (calls w ++ [Select region location where_clause])%list /\
     data w' = <[location := Select_rows (data w !! region) where_clause]> (data w) /\
     (forall in_ipc in_sect4, exists code,
        IndustryV2_execute out_gdb out_fld project_name nutrient region selection
          in_ipc in_sect4 w =
        industry_v2_geoprocessing project_name code location in_ipc in_sect4 out_gdb
          None None w') /\
     (forall in_agglo, exists code,
        WastewaterV2_execute out_gdb out_fld project_name nutrient region selection
          in_agglo w =
        (wastewater_v2_geoprocessing project_name code location in_agglo out_gdb None;;
         Delete_management location) w') /\
     (forall in_wwtp in_factors_wwtp_n in_factors_wwtp_p, exists code in_factors_wwtp,
        WastewaterV1_execute out_gdb out_fld project_name nutrient region selection
          in_wwtp in_factors_wwtp_n in_factors_wwtp_p w =
        (wastewater_v1_geoprocessing project_name code location in_wwtp in_factors_wwtp
           out_gdb None;;
         Delete_management location) w')) /\
  (selection = None \/ selection = Some "" ->
     (forall in_ipc in_sect4,
        let m := IndustryV2_execute out_gdb out_fld project_name nutrient region selection
                   in_ipc in_sect4 in
        (TSelect ∉ tool_of <$> issued m w) /\
        exists code,
          m w = industry_v2_geoprocessing project_name code region in_ipc in_sect4 out_gdb
                  None None w) /\
     (forall in_agglo,
        let m := WastewaterV2_execute out_gdb out_fld project_name nutrient region selection
                   in_agglo in
        (TSelect ∉ tool_of <$> issued m w) /\
        exists code,
          m w = (wastewater_v2_geoprocessing project_name code region in_agglo out_gdb None;;
                 mret tt) w) /\
     (forall in_wwtp in_factors_wwtp_n in_factors_wwtp_p,
        let m := WastewaterV1_execute out_gdb out_fld project_name nutrient region selection
                   in_wwtp in_factors_wwtp_n in_factors_wwtp_p in
        (TSelect ∉ tool_of <$> issued m w) /\
        exists code in_factors_wwtp,
          m w = (wastewater_v1_geoprocessing project_name code region in_wwtp
                   in_factors_wwtp out_gdb None;;
                 mret tt) w)).
Proof.
  intros location. split.
  - intros where_clause -> Hne w'. subst w'.
    assert (Ht : truthy (Some where_clause) = true).
    { simpl. by apply String.eqb_neq in Hne as ->. }
    split; [done|]. split; [done|].
    repeat split; intros.
    + eexists. unfold IndustryV2_execute. rewrite Ht. reflexivity.
    + eexists. unfold WastewaterV2_execute. rewrite Ht. reflexivity.
    + eexists _, _. unfold WastewaterV1_execute. rewrite Ht. reflexivity.
  - intros Hsel.
    assert (Ht : truthy selection = false) by (by destruct Hsel as [->| ->]).
    split; [|split]; intros; subst m; (split; [|destruct w; run; rewrite Ht; first [by eexists|by eexists _, _]]).
    all: destruct w; run; rewrite Ht; try scan_cases; trace; absent.
Qed.

(** C8. Each [execute] calls its geoprocessing function with the code ["N"]
    when the nutrient parameter is ['Nitrogen (N)'], and with ["P"] for any
    other text; [WastewaterV1.execute] passes the factor table of that
    code.  The call is made on the location, and from the world, that the
    selection step leaves. *)
Theorem nutrient_parameter_code
    (out_gdb out_fld project_name nutrient region : string) (selection : option string)
    (w : world) :
  let location :=
    if truthy selection then out_gdb +:+ sep +:+ project_name +:+ "_SelectedRegion"
    else region in
  let w' :=
    if truthy selection
    then final (Select_analysis region location (default "" selection))
           (final (addMessage "> Selecting requested Location(s) within Region.") w)
    else w in
  let clean_up := if truthy selection then Delete_management location else mret tt in
  let handed (code : string) :=
    (forall in_ipc in_sect4,
       IndustryV2_execute out_gdb out_fld project_name nutrient region selection
         in_ipc in_sect4 w =
       industry_v2_geoprocessing project_name code location in_ipc in_sect4 out_gdb
         None None w') /\
    (forall in_agglo,
       WastewaterV2_execute out_gdb out_fld project_name nutrient region selection
         in_agglo w =
       (wastewater_v2_geoprocessing project_name code location in_agglo out_gdb None;;
        clean_up) w') /\
    (forall in_wwtp in_factors_wwtp_n in_factors_wwtp_p,
       WastewaterV1_execute out_gdb out_fld project_name nutrient region selection
         in_wwtp in_factors_wwtp_n in_factors_wwtp_p w =
       (wastewater_v1_geoprocessing project_name code location in_wwtp
          (if String.eqb code "N" then in_factors_wwtp_n else in_factors_wwtp_p)
          out_gdb None;;
        clean_up) w') in
  (nutrient = "Nitrogen (N)" -> handed "N") /\
  (nutrient <> "Nitrogen (N)" -> handed "P").
Proof.
  intros location w' clean_up handed. subst handed clean_up w' location. cbv beta.
  split; intros Hn.
  - subst nutrient. unfold IndustryV2_execute, WastewaterV2_execute, WastewaterV1_execute.
    simpl String.eqb. cbv iota. destruct (truthy selection); repeat split.
  - apply String.eqb_neq in Hn.
    unfold IndustryV2_execute, WastewaterV2_execute, WastewaterV1_execute.
    rewrite Hn. destruct (truthy selection); repeat split.
Qed.

(** C9. [IndustryV2.execute] never issues a Delete.  With a non-empty
    selection, [WastewaterV2.execute] ends with the Delete of
    [<out_gdb><sep><project_name>_SelectedRegion], its only Delete, and so
    does [WastewaterV1.execute] when its geoprocessing function completes;
    when that function raises, no Delete is issued.  With no selection,
    no [execute] issues a Delete. *)
Theorem selected_region_clean_up
    (out_gdb out_fld project_name nutrient region : string) (selection : option string)
    (w : world) :
  let location := out_gdb +:+ sep +:+ project_name +:+ "_SelectedRegion" in
  (forall in_ipc in_sect4,
     TDelete ∉ tool_of <$> issued (IndustryV2_execute out_gdb out_fld project_name nutrient
                                     region selection in_ipc in_sect4) w) /\
  (forall where_clause, selection = Some where_clause -> where_clause <> "" ->
     (forall in_agglo,
        let m := WastewaterV2_execute out_gdb out_fld project_name nutrient region selection
                   in_agglo in
        data (final m w) !! location = None /\
        exists before,
          issued m w = (before ++ [Delete location])%list /\
          TDelete ∉ tool_of <$> before) /\
     (forall in_wwtp in_factors_wwtp_n in_factors_wwtp_p,
        let m := WastewaterV1_execute out_gdb out_fld project_name nutrient region selection
                   in_wwtp in_factors_wwtp_n in_factors_wwtp_p in
        (outcome m w = inr tt ->
         data (final m w) !! location = None /\
         exists before,
           issued m w = (before ++ [Delete location])%list /\
           TDelete ∉ tool_of <$> before) /\
        (forall e, outcome m w = inl e -> TDelete ∉ tool_of <$> issued m w))) /\
  (selection = None \/ selection = Some "" ->
     (forall in_agglo,
        TDelete ∉ tool_of <$> issued (WastewaterV2_execute out_gdb out_fld project_name
                                        nutrient region selection in_agglo) w) /\
     (forall in_wwtp in_factors_wwtp_n in_factors_wwtp_p,
        TDelete ∉ tool_of <$> issued (WastewaterV1_execute out_gdb out_fld project_name
                                        nutrient region selection in_wwtp in_factors_wwtp_n
                                        in_factors_wwtp_p) w)).
Proof.
  intros location. destruct w as [d c ms]. split; [|split].
  - intros. run. destruct (truthy selection); trace; absent.
  - intros where_clause -> Hne.
    assert (Ht : truthy (Some where_clause) = true).
    { simpl. by apply String.eqb_neq in Hne as ->. }
    split; intros; subst m.
    + run. rewrite Ht. trace. split; [apply lookup_delete_eq|].
      eexists [_; _; _; _; _; _]. split; [reflexivity|]. simpl. absent.
    + run. rewrite Ht. scan_cases; trace; (split; [|intros e' He; try done; absent]).
      all: try done; intros _.
      split; [apply lookup_delete_eq|].
      eexists [_; _; _; _; _; _; _; _; _; _; _; _; _; _; _]. split; [reflexivity|].
      simpl. absent.
  - intros Hsel.
    assert (Ht : truthy selection = false) by (by destruct Hsel as [->| ->]).
    split; intros; run; rewrite Ht; try scan_cases; trace; absent.
Qed.

(** ** Names built from the nutrient code *)

Lemma has_suffix_app (n s : string) : has_suffix s (n +:+ s) = true.
Proof.
  induction n as [|a n IH]; simpl.
  - destruct s; simpl; [done|]. by rewrite Ascii.eqb_refl, String.eqb_refl.
  - rewrite IH. apply orb_true_r.
Qed.

(** A name that ends like no name built from the code. *)
Lemma suffix_ne (n s t : string) : has_suffix s t = false -> n +:+ s <> t.
Proof. intros Hs <-. by rewrite has_suffix_app in Hs. Qed.

Lemma append_inj_l (p a b : string) : p +:+ a = p +:+ b -> a = b.
Proof. induction p as [|c p IH]; simpl; [done|]. intros [= H]. by apply IH. Qed.

(** Tell a literal field name from a name built from the nutrient code. *)
Ltac names :=
  first
    [ done
    | apply suffix_ne; reflexivity
    | apply not_eq_sym, suffix_ne; reflexivity
    | simpl; discriminate ].

(** As [through], for rows whose fields are read under built names. *)
Ltac through_names :=
  repeat first
    [ rewrite lookup_calc_field_ne by names
    | rewrite lookup_add_field_ne by names
    | rewrite float_field_calc_field_ne by names
    | rewrite float_field_add_field_ne by names ].

Tactic Notation "through_names" "in" hyp(H) :=
  repeat first
    [ rewrite lookup_calc_field_ne in H by names
    | rewrite lookup_add_field_ne in H by names
    | rewrite float_field_calc_field_ne in H by names
    | rewrite float_field_add_field_ne in H by names ].

(** ** Wastewater, version 2 *)

(** X1. [wastewater_v2_geoprocessing] always completes: it issues the
    spatial join and then the AddField/CalculateField pairs of
    [CSOWast2calc] and [AggWast2calc], all on the output path, and returns
    that path. *)
Theorem wastewater_v2_calls
    (project_name nutrient location in_agglo out_gdb : string) (out_agglo : option string)
    (w : world) :
  let m := wastewater_v2_geoprocessing project_name nutrient location in_agglo out_gdb
             out_agglo in
  exists out,
    outcome m w = inr out /\
    calls (final m w) = (calls w ++ issued m w)%list /\
    issued m w =
      [SpatialJoin in_agglo location out;
       AddField out "CSOWast2calc" "DOUBLE";
       CalculateField out "CSOWast2calc" ("!T" +:+ nutrient +:+ "_SWO!");
       AddField out "AggWast2calc" "DOUBLE";
       CalculateField out "AggWast2calc" ("!PointT" +:+ nutrient +:+ "!")] /\
    is_Some (data (final m w) !! out).
Proof.
  intros m. subst m. destruct w as [d c ms]. run. trace.
  eexists. repeat split.
  rewrite !lookup_alter_eq, lookup_insert_eq. by eexists.
Qed.

(** X2. In every row of the output of [wastewater_v2_geoprocessing],
    [CSOWast2calc] is the cell [T<nutrient>_SWO] and [AggWast2calc] is the
    cell [PointT<nutrient>], for every nutrient code. *)
Theorem wastewater_v2_values
    (project_name nutrient location in_agglo out_gdb : string) (out_agglo : option string)
    (w : world) (r : row) (swo point : value) :
  let out := if truthy out_agglo then default "" out_agglo
             else out_gdb +:+ sep +:+ project_name +:+ "_" +:+ nutrient +:+ "_Wastewater" in
  r ∈ default [] (data (final (wastewater_v2_geoprocessing project_name nutrient location
                                 in_agglo out_gdb out_agglo) w) !! out) ->
  r !! ("T" +:+ nutrient +:+ "_SWO") = Some swo ->
  r !! ("PointT" +:+ nutrient) = Some point ->
  r !! "CSOWast2calc" = Some swo /\ r !! "AggWast2calc" = Some point.
Proof.
  intros out. destruct w as [d c ms]. run.
  change (sep_join [out_gdb; project_name +:+ "_" +:+ nutrient +:+ "_Wastewater"])
    with (out_gdb +:+ sep +:+ project_name +:+ "_" +:+ nutrient +:+ "_Wastewater").
  fold out. intros Hr Hswo Hpoint. rows Hr.
  through_names in Hswo. through_names in Hpoint. split.
  - through_names. apply lookup_calc_field_eq. unfold CSOWast2calc_expr. by through_names.
  - apply lookup_calc_field_eq. unfold AggWast2calc_expr. by through_names.
Qed.

(** ** Output paths given by the caller *)

(** X3. A non-empty output path given by the caller is used as it is: every
    call of the geoprocessing function writes to it, and
    [wastewater_v2_geoprocessing] returns it.  An empty text is no path: the
    run is the run with [None]. *)
Theorem supplied_output_paths
    (project_name nutrient location out_gdb : string) (w : world) :
  (forall in_ipc in_sect4 out_ipc out_sect4, out_ipc <> "" -> out_sect4 <> "" ->
     target_of <$> issued (industry_v2_geoprocessing project_name nutrient location in_ipc
                             in_sect4 out_gdb (Some out_ipc) (Some out_sect4)) w =
     (replicate 3 out_ipc ++ replicate 7 out_sect4)%list) /\
  (forall in_agglo out_agglo, out_agglo <> "" ->
     let m := wastewater_v2_geoprocessing project_name nutrient location in_agglo out_gdb
                (Some out_agglo) in
     outcome m w = inr out_agglo /\ target_of <$> issued m w = replicate 5 out_agglo) /\
  (forall in_wwtp in_factors_wwtp out_wwtp, out_wwtp <> "" ->
     forall c, c ∈ issued (wastewater_v1_geoprocessing project_name nutrient location in_wwtp
                             in_factors_wwtp out_gdb (Some out_wwtp)) w ->
       target_of c = out_wwtp) /\
  (forall in_ipc in_sect4,
     industry_v2_geoprocessing project_name nutrient location in_ipc in_sect4 out_gdb
       (Some "") (Some "") w =
     industry_v2_geoprocessing project_name nutrient location in_ipc in_sect4 out_gdb
       None None w) /\
  (forall in_agglo,
     wastewater_v2_geoprocessing project_name nutrient location in_agglo out_gdb (Some "") w =
     wastewater_v2_geoprocessing project_name nutrient location in_agglo out_gdb None w) /\
  (forall in_wwtp in_factors_wwtp,
     wastewater_v1_geoprocessing project_name nutrient location in_wwtp in_factors_wwtp
       out_gdb (Some "") w =
     wastewater_v1_geoprocessing project_name nutrient location in_wwtp in_factors_wwtp
       out_gdb None w).
Proof.
  assert (Ht : forall p, p <> "" -> truthy (Some p) = true).
  { intros p Hp. simpl. by apply String.eqb_neq in Hp as ->. }
  split; [|split; [|split; [|split; [|split]]]].
  - intros in_ipc in_sect4 out_ipc out_sect4 Hipc Hsect4. run.
    rewrite !Ht by done. by trace.
  - intros in_agglo out_agglo Hout m. subst m. run. rewrite !Ht by done. by trace.
  - intros in_wwtp in_factors_wwtp out_wwtp Hout. apply Forall_forall. run.
    rewrite !Ht by done. scan_cases; trace; by repeat constructor.
  - done.
  - done.
  - done.
Qed.

(** ** What a run leaves alone *)

(** X4. A geoprocessing function changes no dataset but its outputs,
    whether it completes or not. *)
Theorem geoprocessing_frame
    (project_name nutrient location out_gdb : string) (w : world) (p : string) :
  (forall in_ipc in_sect4 out_ipc out_sect4,
     let ipc := if truthy out_ipc then default "" out_ipc
                else out_gdb +:+ sep +:+ project_name +:+ "_" +:+ nutrient +:+ "_IndustryIPC" in
     let sect4 := if truthy out_sect4 then default "" out_sect4
                  else out_gdb +:+ sep +:+ project_name +:+ "_" +:+ nutrient
                       +:+ "_IndustrySect4" in
     p <> ipc -> p <> sect4 ->
     data (final (industry_v2_geoprocessing project_name nutrient location in_ipc in_sect4
                    out_gdb out_ipc out_sect4) w) !! p = data w !! p) /\
  (forall in_agglo out_agglo,
     let out := if truthy out_agglo then default "" out_agglo
                else out_gdb +:+ sep +:+ project_name +:+ "_" +:+ nutrient +:+ "_Wastewater" in
     p <> out ->
     data (final (wastewater_v2_geoprocessing project_name nutrient location in_agglo out_gdb
                    out_agglo) w) !! p = data w !! p) /\
  (forall in_wwtp in_factors_wwtp out_wwtp,
     let out := if truthy out_wwtp then default "" out_wwtp
                else out_gdb +:+ sep +:+ project_name +:+ "_" +:+ nutrient +:+ "_Wastewater" in
     p <> out ->
     data (final (wastewater_v1_geoprocessing project_name nutrient location in_wwtp
                    in_factors_wwtp out_gdb out_wwtp) w) !! p = data w !! p).
Proof.
  destruct w as [d c ms]. split; [|split]; intros.
  - run. by rewrite !lookup_alter_ne, !lookup_insert_ne, !lookup_alter_ne, !lookup_insert_ne.
  - run. by rewrite !lookup_alter_ne, !lookup_insert_ne.
  - run. scan_cases; simpl; by rewrite !lookup_alter_ne, !lookup_insert_ne.
Qed.

(** X5. An [execute] changes only datasets whose path is
    [<out_gdb><sep><project_name>_] followed by something: every other
    dataset, the inputs among them, is as it was, whether the run completes
    or not. *)
Theorem execute_frame
    (out_gdb out_fld project_name nutrient region : string) (selection : option string)
    (w : world) (p : string) :
  (forall suffix, p <> out_gdb +:+ sep +:+ project_name +:+ "_" +:+ suffix) ->
  (forall in_ipc in_sect4,
     data (final (IndustryV2_execute out_gdb out_fld project_name nutrient region selection
                    in_ipc in_sect4) w) !! p = data w !! p) /\
  (forall in_agglo,
     data (final (WastewaterV2_execute out_gdb out_fld project_name nutrient region selection
                    in_agglo) w) !! p = data w !! p) /\
  (forall in_wwtp in_factors_wwtp_n in_factors_wwtp_p,
     data (final (WastewaterV1_execute out_gdb out_fld project_name nutrient region selection
                    in_wwtp in_factors_wwtp_n in_factors_wwtp_p) w) !! p = data w !! p).
Proof.
  intros Hp. destruct w as [d c ms].
  assert (Hout : forall code tail,
    p <> sep_join [out_gdb; project_name +:+ "_" +:+ code +:+ tail]).
  { intros code tail. apply (Hp (code +:+ tail)). }
  assert (Hsel : p <> sep_join [out_gdb; project_name +:+ "_SelectedRegion"]).
  { apply (Hp "SelectedRegion"). }
  split; [|split]; intros; run; destruct (truthy selection); simpl; try scan_cases; simpl;
    rewrite ?lookup_delete_ne, ?lookup_alter_ne, ?lookup_insert_ne,
            ?lookup_alter_ne, ?lookup_insert_ne, ?lookup_insert_ne by done; done.
Qed.

(** ** The IPC output *)

(** The two default outputs of [industry_v2_geoprocessing] are distinct
    datasets. *)
Lemma default_industry_outputs_distinct (out_gdb project_name nutrient : string) :
  out_gdb +:+ sep +:+ project_name +:+ "_" +:+ nutrient +:+ "_IndustryIPC" <>
  out_gdb +:+ sep +:+ project_name +:+ "_" +:+ nutrient +:+ "_IndustrySect4".
Proof.
  intros H. do 3 apply append_inj_l in H. apply (append_inj_l "_") in H.
  apply append_inj_l in H. discriminate H.
Qed.

(** X6. When the two outputs of [industry_v2_geoprocessing] are distinct
    paths, as the default paths are, the Section 4 steps leave the IPC
    output alone: it holds the rows of the IPC intersection, and in each of
    them [IPPC_calc] is the cell [<nutrient>_2012_LAM]. *)
Theorem IPPC_calc_value
    (project_name nutrient location in_ipc in_sect4 out_gdb : string)
    (out_ipc out_sect4 : option string) (w : world) :
  let m := industry_v2_geoprocessing project_name nutrient location in_ipc in_sect4 out_gdb
             out_ipc out_sect4 in
  let ipc := if truthy out_ipc then default "" out_ipc
             else out_gdb +:+ sep +:+ project_name +:+ "_" +:+ nutrient +:+ "_IndustryIPC" in
  let sect4 := if truthy out_sect4 then default "" out_sect4
               else out_gdb +:+ sep +:+ project_name +:+ "_" +:+ nutrient
                    +:+ "_IndustrySect4" in
  (truthy out_ipc = false -> truthy out_sect4 = false -> ipc <> sect4) /\
  (ipc <> sect4 ->
   data (final m w) !! ipc =
     Some (calc_field "IPPC_calc" (IPPC_calc_expr nutrient) <$>
             (add_field "IPPC_calc" <$>
                Intersect_rows [data w !! location; data w !! in_ipc])) /\
   forall r v,
     r ∈ default [] (data (final m w) !! ipc) ->
     r !! (nutrient +:+ "_2012_LAM") = Some v ->
     r !! "IPPC_calc" = Some v).
Proof.
  intros m ipc sect4. split.
  - intros Hi Hs. subst ipc sect4. rewrite Hi, Hs.
    apply default_industry_outputs_distinct.
  - intros Hne.
    assert (Hdata : data (final m w) !! ipc =
      Some (calc_field "IPPC_calc" (IPPC_calc_expr nutrient) <$>
              (add_field "IPPC_calc" <$>
                 Intersect_rows [data w !! location; data w !! in_ipc]))).
    { subst m. destruct w as [d c ms]. run.
      change (sep_join [out_gdb; project_name +:+ "_" +:+ nutrient +:+ "_IndustryIPC"])
        with (out_gdb +:+ sep +:+ project_name +:+ "_" +:+ nutrient +:+ "_IndustryIPC").
      change (sep_join [out_gdb; project_name +:+ "_" +:+ nutrient +:+ "_IndustrySect4"])
        with (out_gdb +:+ sep +:+ project_name +:+ "_" +:+ nutrient +:+ "_IndustrySect4").
      fold ipc sect4.
      rewrite !(lookup_alter_ne _ _ sect4), lookup_insert_ne by done.
      by rewrite !lookup_alter_eq, lookup_insert_eq. }
    split; [done|]. rewrite Hdata. simpl. intros r v Hr Hv.
    repeat (let r' := fresh "r" in apply list_elem_of_fmap in Hr as (r' & -> & Hr)).
    through_names in Hv. apply lookup_calc_field_eq. unfold IPPC_calc_expr.
    by through_names.
Qed.

(** ** The loads of wastewater, version 1 *)



(** X8. When the scan found factors, every row of the output of
    [wastewater_v1_geoprocessing] carries its reported loads unchanged:
    [AERWast1calc] is the cell [<nutrient>_WWTP_AER] and [AERSWOWast1calc]
    the cell [<nutrient>_SWO_AER]. *)
Theorem reported_loads
    (project_name nutrient location in_wwtp in_factors_wwtp out_gdb : string)
    (out_wwtp : option string) (w : world) (fs : factors) (r : row) (wwtp_aer swo_aer : value) :
  let out := if truthy out_wwtp then default "" out_wwtp
             else out_gdb +:+ sep +:+ project_name +:+ "_" +:+ nutrient +:+ "_Wastewater" in
  in_factors_wwtp <> out ->
  find_factors nutrient (default [] (data w !! in_factors_wwtp)) = inr (Some fs) ->
  r ∈ default [] (data (final (wastewater_v1_geoprocessing project_name nutrient location
                                 in_wwtp in_factors_wwtp out_gdb out_wwtp) w) !! out) ->
  r !! (nutrient +:+ "_WWTP_AER") = Some wwtp_aer ->
  r !! (nutrient +:+ "_SWO_AER") = Some swo_aer ->
  r !! "AERWast1calc" = Some wwtp_aer /\ r !! "AERSWOWast1calc" = Some swo_aer.
Proof.
  intros out Hne Hfind. destruct w as [d c m]. run.
  change (sep_join [out_gdb; project_name +:+ "_" +:+ nutrient +:+ "_Wastewater"])
    with (out_gdb +:+ sep +:+ project_name +:+ "_" +:+ nutrient +:+ "_Wastewater").
  fold out. simpl in Hfind.
  rewrite !lookup_alter_ne, lookup_insert_ne, Hfind by done.
  intros Hr Hw Hs. rows Hr. through_names in Hw. through_names in Hs. split.
  - through_names. apply lookup_calc_field_eq. unfold AERWast1calc_expr. by through_names.
  - apply lookup_calc_field_eq. unfold AERSWOWast1calc_expr. by through_names.
Qed.

(** ** Edges of the scan of the factor table *)

(** X9. The scan stops at the first row named [<nutrient>_factors]: the
    rows after it are never read, whatever they hold and whether that
    first row binds the factors or raises. *)
Theorem scan_stops_at_first_match (nutrient : string) (pre post post' : table) (r : row) :
  r !! "FactorName" = Some (VText (nutrient +:+ "_factors")) ->
  find_factors nutrient (pre ++ r :: post) = find_factors nutrient (pre ++ r :: post').
Proof.
  intros Hr. induction pre as [|q pre IH]; simpl.
  - by rewrite (is_factor_row_true _ _ Hr).
  - destruct (is_factor_row nutrient q) as [e|[]]; simpl; [done|done|apply IH].
Qed.

(** The first cell that [float] rejects decides the exception: with only
    numbers and NULLs in the factor columns, and a NULL among them, it is a
    [TypeError]. *)
Lemma bind_factors_null (r : row) :
  Forall (fun column => exists v, r !! column = Some v /\
                          (v = VNull \/ exists x, v = VDouble x)) factor_columns ->
  Exists (fun column => r !! column = Some VNull) factor_columns ->
  bind_factors r = inl TypeError.
Proof.
  unfold factor_columns. intros Hall Hnull.
  repeat match goal with
         | H : Forall _ (_ :: _) |- _ =>
             apply Forall_cons in H as [(? & ? & [->|[? ->]]) H]
         end.
  all: unfold bind_factors, float_cell, getValue.
  all: repeat match goal with H : _ !! _ = Some _ |- _ => rewrite H end.
  all: simpl; try reflexivity.
  all: exfalso; repeat (apply Exists_cons in Hnull as [Hnull|Hnull]; [congruence|]).
  all: by apply Exists_nil in Hnull.
Qed.

(** X10. A NULL in a factor column of the first row named
    [<nutrient>_factors] ends the scan with a [TypeError], not with the
    exception of the lookup, and changes nothing; a later complete row of
    that name does not help. *)
Theorem null_factor_raises_TypeError
    (nutrient in_factors_wwtp : string) (w : world) (pre post : table) (r : row) :
  let name := VText (nutrient +:+ "_factors") in
  default [] (data w !! in_factors_wwtp) = (pre ++ r :: post)%list ->
  (forall q, q ∈ pre -> is_Some (q !! "FactorName") /\ q !! "FactorName" <> Some name) ->
  r !! "FactorName" = Some name ->
  Forall (fun column => exists v, r !! column = Some v /\
                          (v = VNull \/ exists x, v = VDouble x)) factor_columns ->
  Exists (fun column => r !! column = Some VNull) factor_columns ->
  lookup_factors nutrient in_factors_wwtp w = (inl TypeError, w).
Proof.
  intros name Hrows Hpre Hr Hall Hnull. destruct w as [d c ms]. simpl in Hrows. run.
  rewrite Hrows, find_factors_skip by (intros; by apply Hpre).
  simpl. rewrite (is_factor_row_true _ _ Hr). simpl.
  by rewrite (bind_factors_null r Hall Hnull).
Qed.


(** ** Messages *)

(** X12. The messages of a run do not depend on the data: each
    geoprocessing function announces its stages in order, also when it ends
    with an exception, and an [execute] with a selection announces the
    selection first. *)
Theorem progress_messages
    (out_gdb out_fld project_name nutrient region location : string)
    (selection : option string) (w : world) :
  let code := if String.eqb nutrient "Nitrogen (N)" then "N" else "P" in
  let selecting :=
    if truthy selection then ["> Selecting requested Location(s) within Region."] else [] in
  (forall in_ipc in_sect4 out_ipc out_sect4,
     messages (final (industry_v2_geoprocessing project_name nutrient location in_ipc
                        in_sect4 out_gdb out_ipc out_sect4) w) =
     (messages w ++ ["> Calculating " +:+ nutrient +:+ " load for IPC industries.";
                     "> Calculating " +:+ nutrient +:+ " load for Section 4 industries."])%list) /\
  (forall in_agglo out_agglo,
     messages (final (wastewater_v2_geoprocessing project_name nutrient location in_agglo
                        out_gdb out_agglo) w) =
     (messages w ++ ["> Calculating " +:+ nutrient
                     +:+ " load for Wastewater Treatment Plants."])%list) /\
  (forall in_wwtp in_factors_wwtp out_wwtp,
     messages (final (wastewater_v1_geoprocessing project_name nutrient location in_wwtp
                        in_factors_wwtp out_gdb out_wwtp) w) =
     (messages w ++ ["> Calculating " +:+ nutrient
                     +:+ " load for wastewater treatment plants."])%list) /\
  (forall in_ipc in_sect4,
     messages (final (IndustryV2_execute out_gdb out_fld project_name nutrient region
                        selection in_ipc in_sect4) w) =
     (messages w ++ selecting ++
        ["> Calculating " +:+ code +:+ " load for IPC industries.";
         "> Calculating " +:+ code +:+ " load for Section 4 industries."])%list) /\
  (forall in_agglo,
     messages (final (WastewaterV2_execute out_gdb out_fld project_name nutrient region
                        selection in_agglo) w) =
     (messages w ++ selecting ++
        ["> Calculating " +:+ code +:+ " load for Wastewater Treatment Plants."])%list) /\
  (forall in_wwtp in_factors_wwtp_n in_factors_wwtp_p,
     messages (final (WastewaterV1_execute out_gdb out_fld project_name nutrient region
                        selection in_wwtp in_factors_wwtp_n in_factors_wwtp_p) w) =
     (messages w ++ selecting ++
        ["> Calculating " +:+ code +:+ " load for wastewater treatment plants."])%list).
Proof.
  intros code selecting. subst code selecting. destruct w as [d c ms].
  split; [|split; [|split; [|split; [|split]]]]; intros; run.
  - by rewrite <- List.app_assoc.
  - done.
  - by scan_cases.
  - destruct (truthy selection); simpl; by rewrite <- ?List.app_assoc.
  - destruct (truthy selection); simpl; by rewrite <- ?List.app_assoc.
  - destruct (truthy selection); simpl; scan_cases; simpl; by rewrite <- ?List.app_assoc.
Qed.

(** ** The selected region after a run *)

(** The selected region is no output path. *)
Lemma selected_region_is_no_output (out_gdb project_name nutrient tail : string) :
  let code := if String.eqb nutrient "Nitrogen (N)" then "N" else "P" in
  sep_join [out_gdb; project_name +:+ "_SelectedRegion"] <>
  sep_join [out_gdb; project_name +:+ "_" +:+ code +:+ tail].
Proof.
  intros code H. unfold sep_join in H. simpl in H.
  do 3 apply append_inj_l in H. subst code.
  destruct (String.eqb nutrient "Nitrogen (N)"); discriminate H.
Qed.

(** X13. After [IndustryV2.execute] with a non-empty selection, the
    selected region is still in the geodatabase and holds the selected rows;
    so it is after [WastewaterV1.execute] when the geoprocessing function
    raised. *)
Theorem selected_region_left_behind
    (out_gdb out_fld project_name nutrient region where_clause : string) (w : world) :
  let location := out_gdb +:+ sep +:+ project_name +:+ "_SelectedRegion" in
  where_clause <> "" ->
  (forall in_ipc in_sect4,
     data (final (IndustryV2_execute out_gdb out_fld project_name nutrient region
                    (Some where_clause) in_ipc in_sect4) w) !! location =
     Some (Select_rows (data w !! region) where_clause)) /\
  (forall in_wwtp in_factors_wwtp_n in_factors_wwtp_p e,
     let m := WastewaterV1_execute out_gdb out_fld project_name nutrient region
                (Some where_clause) in_wwtp in_factors_wwtp_n in_factors_wwtp_p in
     outcome m w = inl e ->
     data (final m w) !! location = Some (Select_rows (data w !! region) where_clause)).
Proof.
  intros location Hne.
  assert (Ht : truthy (Some where_clause) = true).
  { simpl. by apply String.eqb_neq in Hne as ->. }
  pose proof (selected_region_is_no_output out_gdb project_name nutrient) as Hout.
  simpl in Hout. destruct w as [d c ms]. split.
  - intros. run. rewrite Ht. simpl.
    rewrite !lookup_alter_ne, lookup_insert_ne, !lookup_alter_ne, lookup_insert_ne
      by (apply not_eq_sym, Hout).
    by rewrite lookup_insert_eq.
  - intros in_wwtp in_factors_wwtp_n in_factors_wwtp_p e m. subst m. run. rewrite Ht. simpl.
    scan_cases; simpl; [|done|]; intros _;
      rewrite !lookup_alter_ne, lookup_insert_ne by (apply not_eq_sym, Hout);
      by rewrite lookup_insert_eq.
Qed.

(** X14. With a non-empty selection, and inputs that are not the selected
    region itself, the outputs are computed against the selected rows:
    [WastewaterV2.execute] leaves in its output the join of the
    agglomerations with the selection, and [IndustryV2.execute] leaves in
    its IPC output the intersection of the selection with the IPC
    licences. *)
Theorem outputs_from_selection
    (out_gdb out_fld project_name nutrient region where_clause : string) (w : world) :
  let code := if String.eqb nutrient "Nitrogen (N)" then "N" else "P" in
  let location := out_gdb +:+ sep +:+ project_name +:+ "_SelectedRegion" in
  let selected := Some (Select_rows (data w !! region) where_clause) in
  where_clause <> "" ->
  (forall in_agglo, in_agglo <> location ->
     data (final (WastewaterV2_execute out_gdb out_fld project_name nutrient region
                    (Some where_clause) in_agglo) w)
       !! (out_gdb +:+ sep +:+ project_name +:+ "_" +:+ code +:+ "_Wastewater") =
     Some (calc_field "AggWast2calc" (AggWast2calc_expr code) <$>
             (add_field "AggWast2calc" <$>
                (calc_field "CSOWast2calc" (CSOWast2calc_expr code) <$>
                   (add_field "CSOWast2calc" <$>
                      SpatialJoin_rows (data w !! in_agglo) selected))))) /\
  (forall in_ipc in_sect4, in_ipc <> location ->
     data (final (IndustryV2_execute out_gdb out_fld project_name nutrient region
                    (Some where_clause) in_ipc in_sect4) w)
       !! (out_gdb +:+ sep +:+ project_name +:+ "_" +:+ code +:+ "_IndustryIPC") =
     Some (calc_field "IPPC_calc" (IPPC_calc_expr code) <$>
             (add_field "IPPC_calc" <$> Intersect_rows [selected; data w !! in_ipc]))).
Proof.
  intros code location selected Hne.
  assert (Ht : truthy (Some where_clause) = true).
  { simpl. by apply String.eqb_neq in Hne as ->. }
  pose proof (selected_region_is_no_output out_gdb project_name nutrient) as Hout.
  simpl in Hout. destruct w as [d c ms]. split.
  - intros in_agglo Hin. run. rewrite Ht. simpl.
    change (sep_join [out_gdb; project_name +:+ "_SelectedRegion"]) with location.
    rewrite lookup_delete_ne by apply Hout.
    rewrite !lookup_alter_eq, lookup_insert_eq. simpl.
    by rewrite lookup_insert_eq, lookup_insert_ne.
  - intros in_ipc in_sect4 Hin. run. rewrite Ht. simpl.
    change (sep_join [out_gdb; project_name +:+ "_SelectedRegion"]) with location.
    rewrite !(lookup_alter_ne _ _ (sep_join [_; _ +:+ "_" +:+ _ +:+ "_IndustrySect4"])),
      lookup_insert_ne by apply not_eq_sym, default_industry_outputs_distinct.
    rewrite !lookup_alter_eq, lookup_insert_eq. simpl.
    by rewrite lookup_insert_eq, lookup_insert_ne.
Qed.

End Properties.

(** ** The theorems at the sample instance *)

Lemma only_row_is_row (m : M unit) (path : string) (r : row) :
  data (final m sample_world) !! path = Some [r] ->
  only_row m path ∈ default [] (data (final m sample_world) !! path).
Proof. unfold only_row. intros ->. simpl. by left. Qed.

(** C1, as the specification words it, fails: the sample plant reports
    2 PE and is estimated at 5 PE; the run stores 2 in [PE_calc], and the
    larger of the two is 5. *)
Lemma PE_calc_is_not_the_larger :
  let r := only_row (sample_wastewater_v1 "factors_N") "out.gdb/demo_N_Wastewater" in
  data (final (sample_wastewater_v1 "factors_N") sample_world)
    !! "out.gdb/demo_N_Wastewater" = Some [r] /\
  r !! "AER14_PE" = Some (VDouble 2) /\
  r !! "LEMA_PE" = Some (VDouble 5) /\
  r !! "PE_calc" = Some (VDouble 2) /\
  larger_of 2 5 = 5%float /\
  r !! "PE_calc" <> Some (VDouble (larger_of 2 5)).
Proof.
  repeat split; try reflexivity.
  assert (Hpe : only_row (sample_wastewater_v1 "factors_N") "out.gdb/demo_N_Wastewater"
                  !! "PE_calc" = Some (VDouble 2)) by reflexivity.
  rewrite Hpe. discriminate.
Qed.

Lemma PE_calc_value_witness :
  only_row (sample_wastewater_v1 "factors_N") "out.gdb/demo_N_Wastewater" !! "PE_calc"
  = Some (VDouble 2).
Proof.
  apply (PE_calc_value (engine := sample_engine)
           "demo" "N" "region" "wwtp" "factors_N" "out.gdb" None sample_world _ 2 5).
  - eapply only_row_is_row. reflexivity.
  - reflexivity.
  - reflexivity.
Defined.








(** ** The further theorems at the sample instances *)

Lemma the_row_is_row {A : Type} (m : M A) (w : world) (path : string) (r : row) :
  data (final m w) !! path = Some [r] ->
  the_row m w path ∈ default [] (data (final m w) !! path).
Proof. unfold the_row. intros ->. simpl. by left. Qed.

Lemma wastewater_v2_values_witness :
  let r := the_row sample_wastewater_v2 sample_world' "out.gdb/demo_N_Wastewater" in
  r !! "CSOWast2calc" = Some (VDouble 4) /\ r !! "AggWast2calc" = Some (VDouble 7).
Proof.
  apply (wastewater_v2_values (engine := sample_engine) "demo" "N" "region" "agglo" "out.gdb"
           None sample_world').
  - eapply the_row_is_row. reflexivity.
  - reflexivity.
  - reflexivity.
Defined.

Lemma execute_frame_witness :
  data (final (WastewaterV1_execute (engine := sample_engine) "out.gdb" "out" "demo"
                 "Nitrogen (N)" "region" (Some "OBJECTID = 1") "wwtp" "factors_N" "factors_P")
          sample_world') !! "wwtp"
  = data sample_world' !! "wwtp".
Proof.
  destruct (execute_frame (engine := sample_engine) "out.gdb" "out" "demo" "Nitrogen (N)"
              "region" (Some "OBJECTID = 1") sample_world' "wwtp") as (_ & _ & Hv1).
  - intros suffix. discriminate.
  - exact (Hv1 "wwtp" "factors_N" "factors_P").
Defined.


Lemma reported_loads_witness :
  let r := the_row sample_wastewater_v1' sample_world' "out.gdb/demo_N_Wastewater" in
  r !! "AERWast1calc" = Some (VDouble 0.5) /\ r !! "AERSWOWast1calc" = Some (VDouble 0).
Proof.
  apply (reported_loads (engine := sample_engine) "demo" "N" "region" "wwtp" "factors_N"
           "out.gdb" None sample_world' (Factors 1 0.875 0.75 0.5 0.25 0.125 0.375 9)).
  - discriminate.
  - reflexivity.
  - eapply the_row_is_row. reflexivity.
  - reflexivity.
  - reflexivity.
Defined.

Lemma scan_stops_at_first_match_witness :
  find_factors (engine := sample_engine) "N"
    [sample_factor_row "P_factors" 2; sample_incomplete_factor_row;
     sample_factor_row "N_factors" 9]
  = find_factors (engine := sample_engine) "N"
      [sample_factor_row "P_factors" 2; sample_incomplete_factor_row].
Proof.
  apply (scan_stops_at_first_match (engine := sample_engine) "N"
           [sample_factor_row "P_factors" 2] [sample_factor_row "N_factors" 9] []
           sample_incomplete_factor_row).
  reflexivity.
Defined.

Lemma null_factor_raises_TypeError_witness :
  lookup_factors (engine := sample_engine) "N" "factors_null" sample_world'
  = (inl TypeError, sample_world').
Proof.
  apply (null_factor_raises_TypeError (engine := sample_engine) "N" "factors_null"
           sample_world' [] [sample_factor_row "N_factors" 9] sample_incomplete_factor_row).
  - reflexivity.
  - intros q Hq. by apply elem_of_nil in Hq.
  - reflexivity.
  - unfold factor_columns. repeat constructor.
    all: eexists; split; [reflexivity|]; first [by left|right; by eexists].
  - unfold factor_columns. do 4 apply Exists_cons_tl. apply Exists_cons_hd. reflexivity.
Defined.

Lemma selected_region_left_behind_witness :
  data (final (IndustryV2_execute (engine := sample_engine) "out.gdb" "out" "demo"
                 "Nitrogen (N)" "region" (Some "OBJECTID = 1") "ipc" "sect4") sample_world')
    !! "out.gdb/demo_SelectedRegion"
  = Some [∅].
Proof.
  destruct (selected_region_left_behind (engine := sample_engine) "out.gdb" "out" "demo"
              "Nitrogen (N)" "region" "OBJECTID = 1" sample_world') as [Hindustry _].
  - discriminate.
  - exact (Hindustry "ipc" "sect4").
Defined.

Lemma outputs_from_selection_witness :
  data (final (WastewaterV2_execute (engine := sample_engine) "out.gdb" "out" "demo"
                 "Nitrogen (N)" "agglo" (Some "OBJECTID = 1") "agglo") sample_world')
    !! "out.gdb/demo_N_Wastewater"
  = Some [the_row sample_wastewater_v2 sample_world' "out.gdb/demo_N_Wastewater"].
Proof.
  destruct (outputs_from_selection (engine := sample_engine) "out.gdb" "out" "demo"
              "Nitrogen (N)" "agglo" "OBJECTID = 1" sample_world') as [Hv2 _].
  - discriminate.
  - refine (eq_trans (Hv2 "agglo" _) _); [discriminate|reflexivity].
Defined.

